(** * NeuralRink: the standalone goalie environment of [alternative_train.py]

    A shallow embedding of the class [HockeyEnv] built by
    [create_hockey_environment]: its state, [reset], [step],
    [_get_observation] and [_check_save], and of the test loop of
    [train_goalie], followed by the properties of the episode dynamics
    and of the test report.

    Numbers.  The environment computes with numpy [float64] arrays.  The
    embedding reads every floating-point operation as the exact operation
    on real numbers ([R]); rounding, infinities and NaN are outside the
    model.  Python integers ([episode_step], [max_steps]) are [Z]. *)

From Stdlib Require Import Reals Lra ZArith Lia Ascii String Bool List.
Import ListNotations.

Open Scope R_scope.

(** ** Comparisons returning a Python [bool] *)

Definition Rltb (x y : R) : bool := if Rlt_dec x y then true else false.
Definition Rgtb (x y : R) : bool := if Rgt_dec x y then true else false.

(** ** The numpy operations the environment uses *)

Module np.

(** A length-2 array. *)
Definition vec2 : Type := (R * R)%type.

Definition add (a b : vec2) : vec2 := (fst a + fst b, snd a + snd b).
Definition sub (a b : vec2) : vec2 := (fst a - fst b, snd a - snd b).
(** [a * k] for a scalar [k]. *)
Definition scale (a : vec2) (k : R) : vec2 := (fst a * k, snd a * k).

(** [np.clip x lo hi] is [minimum (maximum x lo) hi], element by element. *)
Definition clip1 (x lo hi : R) : R := Rmin (Rmax x lo) hi.
Definition clip (a lo hi : vec2) : vec2 :=
  (clip1 (fst a) (fst lo) (fst hi), clip1 (snd a) (snd lo) (snd hi)).

(** [np.linalg.norm] of a length-2 array: the Euclidean norm. *)
Definition norm (a : vec2) : R := sqrt (fst a * fst a + snd a * snd a).

(** The process-global generator behind [np.random.uniform].  Its state
    fixes the unit samples in [[0, 1)] it will hand out, in order; the
    model keeps exactly that sequence. *)
Definition RandomState : Type := nat -> R.

(** [np.random.uniform low high]: one sample, and the advanced generator. *)
Definition uniform (low high : R) (g : RandomState) : R * RandomState :=
  (low + (high - low) * g 0%nat, fun n => g (S n)).

End np.

(** ** The [info] dictionary *)

Definition dict : Type := list (string * string).

(** [d[k] = v] *)
Fixpoint setitem (d : dict) (k v : string) : dict :=
  match d with
  | [] => [(k, v)]
  | (k', v') :: d' =>
      if String.eqb k' k then (k', v) :: d' else (k', v') :: setitem d' k v
  end.

(** [d.get(k)] *)
Fixpoint getitem (d : dict) (k : string) : option string :=
  match d with
  | [] => None
  | (k', v') :: d' => if String.eqb k' k then Some v' else getitem d' k
  end.

(** ** The environment object *)

Record HockeyEnv : Type := mkHockeyEnv {
  goalie_pos : np.vec2;
  puck_pos : np.vec2;
  puck_vel : np.vec2;
  episode_step : Z;
  max_steps : Z;
  puck_shot : bool;
  (** seed held by the generator the instance owns ([self.np_random]),
      set by [super().reset(seed=seed)]; nothing is ever drawn from it *)
  np_random : option Z
}.

(** What [step] returns: [(observation, reward, done, truncated, info)]. *)
Record StepResult : Type := mkStepResult {
  observation : list R;
  reward : R;
  done : bool;
  truncated : bool;
  info : dict
}.

(** [_get_observation] *)
Definition _get_observation (self : HockeyEnv) : list R :=
  [ fst (goalie_pos self);
    snd (goalie_pos self);
    fst (puck_pos self);
    snd (puck_pos self);
    fst (puck_vel self);
    snd (puck_vel self);
    0; 0; 0; 0; 0; 0 ].

(** [_check_save] *)
Definition _check_save (self : HockeyEnv) : bool :=
  let distance := np.norm (np.sub (puck_pos self) (goalie_pos self)) in
  let in_goal_area :=
    Rgtb (fst (puck_pos self)) 6 && Rltb (Rabs (snd (puck_pos self))) 1.0 in
  Rltb distance 1.0 && in_goal_area.

(** [super().reset(seed=seed)]: a given seed reseeds the generator of the
    instance, [None] leaves it as it is. *)
Definition super_reset (self : HockeyEnv) (seed : option Z) : option Z :=
  match seed with
  | Some s => Some s
  | None => np_random self
  end.

(** [reset]: returns the new object, [(observation, {})] and the advanced
    global generator. *)
Definition reset (self : HockeyEnv) (seed : option Z) (g : np.RandomState)
  : HockeyEnv * (list R * dict) * np.RandomState :=
  let rng := super_reset self seed in
  let '(lateral, g') := np.uniform (-0.5) 0.5 g in
  let self' :=
    {| goalie_pos := (0.0, 0.0);
       puck_pos := (-5.0, 0.0);
       puck_vel := (2.0, lateral);
       episode_step := 0;
       max_steps := 300;
       puck_shot := false;
       np_random := rng |} in
  (self', (_get_observation self', []), g').

(** The three in-step end conditions, as [step] tests them. *)
Definition is_miss (self : HockeyEnv) : bool :=
  Rgtb (Rabs (fst (puck_pos self))) 8.
Definition is_goal (self : HockeyEnv) : bool :=
  Rltb (Rabs (snd (puck_pos self))) 0.5 && Rgtb (fst (puck_pos self)) 7.

(** The state after the goalie move and the puck update (the first four
    assignments of [step]). *)
Definition move (self : HockeyEnv) (action : np.vec2) : HockeyEnv :=
  let goalie := np.add (goalie_pos self) (np.scale action 0.1) in
  let goalie := np.clip goalie (-2.0, -1.5) (2.0, 1.5) in
  let puck := np.add (puck_pos self) (np.scale (puck_vel self) 0.02) in
  let vel := np.scale (puck_vel self) 0.99 in
  {| goalie_pos := goalie;
     puck_pos := puck;
     puck_vel := vel;
     episode_step := episode_step self;
     max_steps := max_steps self;
     puck_shot := puck_shot self;
     np_random := np_random self |}.

(** [step] *)
Definition step (self : HockeyEnv) (action : np.vec2)
  : HockeyEnv * StepResult :=
  let self := move self action in
  let reward := 0 in
  let done := false in
  let info : dict := [] in
  let distance_to_puck := np.norm (np.sub (puck_pos self) (goalie_pos self)) in
  let reward := reward + Rmax 0 (10 - distance_to_puck) * 0.1 in
  let '(reward, done, info) :=
    if is_miss self then (50, true, setitem info "result" "miss")
    else if is_goal self then (-200, true, setitem info "result" "goal")
    else if _check_save self then (200, true, setitem info "result" "save")
    else (reward, done, info) in
  let self :=
    {| goalie_pos := goalie_pos self;
       puck_pos := puck_pos self;
       puck_vel := puck_vel self;
       episode_step := episode_step self + 1;
       max_steps := max_steps self;
       puck_shot := puck_shot self;
       np_random := np_random self |} in
  let '(reward, done, info) :=
    if (episode_step self >=? max_steps self)%Z
    then (-10, true, setitem info "result" "timeout")
    else (reward, done, info) in
  (self, {| observation := _get_observation self;
            reward := reward;
            done := done;
            truncated := false;
            info := info |}).

(** Stepping through a sequence of actions, keeping every result. *)
Fixpoint run (self : HockeyEnv) (actions : list np.vec2)
  : HockeyEnv * list StepResult :=
  match actions with
  | [] => (self, [])
  | a :: rest =>
      let '(self1, r) := step self a in
      let '(self2, rs) := run self1 rest in
      (self2, r :: rs)
  end.

(** A freshly allocated object, before [__init__] calls [reset]. *)
Definition blank : HockeyEnv :=
  {| goalie_pos := (0, 0); puck_pos := (0, 0); puck_vel := (0, 0);
     episode_step := 0; max_steps := 0; puck_shot := false;
     np_random := None |}.

(** ** The test loop of [train_goalie]

    After training, [train_goalie] resets the environment once, then plays
    ten episodes with the trained model and prints one line per episode,
    the average reward and a verdict. *)

(** [str.upper], on the ASCII letters (the result labels hold no others). *)
Definition upper_ascii (c : ascii) : ascii :=
  let n := nat_of_ascii c in
  if (97 <=? n)%nat && (n <=? 122)%nat then ascii_of_nat (n - 32) else c.

Fixpoint upper (s : string) : string :=
  match s with
  | EmptyString => EmptyString
  | String c rest => String (upper_ascii c) (upper rest)
  end.

(** [d.get(k, default)] *)
Definition get (d : dict) (k default : string) : string :=
  match getitem d k with
  | Some v => v
  | None => default
  end.

(** [model.predict(obs, deterministic=True)]: the trained model read as a
    function from the observation to the action. *)
Definition Policy : Type := list R -> np.vec2.

(** What one [print] of the test loop shows: the episode number, the
    upper-cased result and the episode reward. *)
Record EpisodeLine : Type := mkEpisodeLine {
  episode_number : Z;
  result_shown : string;
  reward_shown : R
}.

(** The [while True] loop of one test episode.  [fuel] bounds the number of
    iterations; [None] means the bound was used up before the [break]. *)
Fixpoint test_episode (fuel : nat) (model : Policy) (env : HockeyEnv)
    (obs : list R) (episode_reward : R) : option (HockeyEnv * string * R) :=
  match fuel with
  | O => None
  | S fuel' =>
      let action := model obs in
      let '(env, r) := step env action in
      let episode_reward := episode_reward + reward r in
      if done r || truncated r
      then Some (env, get (info r) "result" "timeout", episode_reward)
      else test_episode fuel' model env (observation r) episode_reward
  end.

(** [range(n)] *)
Definition range (n : nat) : list Z := map Z.of_nat (seq 0 n).

(** The [for i in range(10)] loop, over the indices still to play. *)
Fixpoint test_episodes (fuel : nat) (model : Policy) (indices : list Z)
    (env : HockeyEnv) (g : np.RandomState) (total_reward : R)
  : option (HockeyEnv * np.RandomState * R * list EpisodeLine) :=
  match indices with
  | [] => Some (env, g, total_reward, [])
  | i :: rest =>
      let '(env, (obs, _), g) := reset env None g in
      match test_episode fuel model env obs 0 with
      | None => None
      | Some (env, result, episode_reward) =>
          let line := {| episode_number := i + 1;
                         result_shown := upper result;
                         reward_shown := episode_reward |} in
          let total_reward := total_reward + episode_reward in
          match test_episodes fuel model rest env g total_reward with
          | None => None
          | Some (env, g, total_reward, lines) =>
              Some (env, g, total_reward, line :: lines)
          end
      end
  end.

(** The three closing messages. *)
Inductive Verdict : Type := PerformingWell | Learning | NeedsMoreTraining.

Definition verdict (avg_reward : R) : Verdict :=
  if Rgtb avg_reward 100 then PerformingWell
  else if Rgtb avg_reward 0 then Learning
  else NeedsMoreTraining.

Record TestReport : Type := mkTestReport {
  lines : list EpisodeLine;
  avg_reward : R;
  message : Verdict
}.

(** The test part of [train_goalie], from ["Testing trained model..."] on. *)
Definition test_trained_model (fuel : nat) (model : Policy) (env : HockeyEnv)
    (g : np.RandomState) : option (TestReport * HockeyEnv * np.RandomState) :=
  let '(env, (obs, _), g) := reset env None g in
  let total_reward := 0 in
  match test_episodes fuel model (range 10) env g total_reward with
  | None => None
  | Some (env, g, total_reward, lines) =>
      let avg_reward := total_reward / 10 in
      Some ({| lines := lines;
               avg_reward := avg_reward;
               message := verdict avg_reward |}, env, g)
  end.


(** ** Specification-side vocabulary *)

(** The proximity reward of one step, computed on the state it leaves. *)
Definition shaping (self : HockeyEnv) : R :=
  Rmax 0 (10 - np.norm (np.sub (puck_pos self) (goalie_pos self))) * 0.1.

(** The object after the counter increment. *)
Definition tick (self : HockeyEnv) : HockeyEnv :=
  {| goalie_pos := goalie_pos self;
     puck_pos := puck_pos self;
     puck_vel := puck_vel self;
     episode_step := episode_step self + 1;
     max_steps := max_steps self;
     puck_shot := puck_shot self;
     np_random := np_random self |}.

(** [info.get('result')] of a step result. *)
Definition result_of (r : StepResult) : option string :=
  getitem (info r) "result".

Lemma Rltb_true x y : Rltb x y = true <-> x < y.
Proof. unfold Rltb; destruct (Rlt_dec x y); split; intros; try easy. Qed.

Lemma Rltb_false x y : Rltb x y = false <-> y <= x.
Proof.
  unfold Rltb; destruct (Rlt_dec x y); split; intros; try easy; lra.
Qed.

Lemma Rgtb_true x y : Rgtb x y = true <-> y < x.
Proof. unfold Rgtb; destruct (Rgt_dec x y); split; intros; try easy. Qed.

Lemma Rgtb_false x y : Rgtb x y = false <-> x <= y.
Proof.
  unfold Rgtb; destruct (Rgt_dec x y); split; intros; try easy; lra.
Qed.

(** Case analysis following the branches of [step]: the three in-step
    tests in their order, then the step-limit test. *)
Ltac step_cases self action :=
  unfold step; cbv zeta;
  destruct (is_miss (move self action)) eqn:Hmiss;
  [ | destruct (is_goal (move self action)) eqn:Hgoal;
      [ | destruct (_check_save (move self action)) eqn:Hsave ] ];
  cbn [episode_step max_steps];
  destruct (episode_step (move self action) + 1 >=? max_steps (move self action))%Z
    eqn:Hlimit.

Lemma step_state self action : fst (step self action) = tick (move self action).
Proof. step_cases self action; reflexivity. Qed.

Lemma step_result_obs self action :
  observation (snd (step self action)) =
  _get_observation (tick (move self action)).
Proof. step_cases self action; reflexivity. Qed.

Lemma step_result_truncated self action :
  truncated (snd (step self action)) = false.
Proof. step_cases self action; reflexivity. Qed.

(** The result of a step that reaches the step limit. *)
Lemma step_at_limit self action :
  (max_steps self <= episode_step self + 1)%Z ->
  snd (step self action) =
  {| observation := _get_observation (tick (move self action));
     reward := -10; done := true; truncated := false;
     info := [("result", "timeout")] |}%string.
Proof.
  intros Hle. step_cases self action; cbn [move episode_step max_steps] in Hlimit;
    try reflexivity; rewrite Z.geb_leb in Hlimit; apply Z.leb_gt in Hlimit; lia.
Qed.

(** The result of a step below the step limit: the in-step tests decide. *)
Lemma step_below_limit self action :
  (episode_step self + 1 < max_steps self)%Z ->
  snd (step self action) =
  let s := move self action in
  let obs := _get_observation (tick s) in
  (if is_miss s then mkStepResult obs 50 true false [("result", "miss")]
   else if is_goal s then mkStepResult obs (-200) true false [("result", "goal")]
   else if _check_save s then mkStepResult obs 200 true false [("result", "save")]
   else mkStepResult obs (shaping s) false false [])%string.
Proof.
  intros Hlt. step_cases self action; cbn [move episode_step max_steps] in Hlimit;
    try (rewrite Z.geb_leb in Hlimit; apply Z.leb_le in Hlimit; lia); cbv zeta; rewrite ?Hmiss, ?Hgoal, ?Hsave;
    try reflexivity.
  unfold shaping. rewrite Rplus_0_l. reflexivity.
Qed.

Lemma norm_nonneg a : 0 <= np.norm a.
Proof. unfold np.norm. apply sqrt_pos. Qed.

Lemma norm_ge_fst a : 0 <= fst a -> fst a <= np.norm a.
Proof.
  intros H. unfold np.norm.
  rewrite <- (sqrt_square (fst a)) at 1 by assumption.
  apply sqrt_le_1_alt. nra.
Qed.

Lemma shaping_le_1 s : shaping s <= 1.
Proof.
  unfold shaping.
  pose proof (norm_nonneg (np.sub (puck_pos s) (goalie_pos s))) as Hn.
  unfold Rmax. destruct (Rle_dec _ _); lra.
Qed.

Lemma shaping_nonneg s : 0 <= shaping s.
Proof. unfold shaping, Rmax. destruct (Rle_dec _ _); lra. Qed.

Lemma clip1_bounds x lo hi : lo <= hi -> lo <= np.clip1 x lo hi <= hi.
Proof.
  intros H. unfold np.clip1, Rmin, Rmax.
  destruct (Rle_dec x lo); destruct (Rle_dec _ hi); lra.
Qed.

Lemma clip1_id x lo hi : lo <= x <= hi -> np.clip1 x lo hi = x.
Proof.
  intros H. unfold np.clip1, Rmin, Rmax.
  destruct (Rle_dec x lo); destruct (Rle_dec _ hi); lra.
Qed.

(** A goalie no further right than the arena allows cannot be within
    distance 1 of a puck beyond [x = 6]. *)
Lemma check_save_false s : fst (goalie_pos s) <= 2 -> _check_save s = false.
Proof.
  intros Hg. unfold _check_save. cbv zeta.
  destruct (Rltb _ 1.0) eqn:Hd; [ | reflexivity ].
  destruct (Rgtb _ 6) eqn:Hx; [ | reflexivity ].
  exfalso. apply Rltb_true in Hd. apply Rgtb_true in Hx.
  pose proof (norm_ge_fst (np.sub (puck_pos s) (goalie_pos s))) as Hn.
  cbn [np.sub fst] in Hn. lra.
Qed.

Lemma move_goalie_bounds self action :
  let g := goalie_pos (move self action) in
  -2.0 <= fst g <= 2.0 /\ -1.5 <= snd g <= 1.5.
Proof.
  cbn. split; apply clip1_bounds; lra.
Qed.

Lemma move_no_save self action : _check_save (move self action) = false.
Proof.
  apply check_save_false.
  pose proof (move_goalie_bounds self action) as H. cbv zeta in H. lra.
Qed.

(** ** Runs *)

Lemma run_cons s a rest :
  run s (a :: rest) =
  (fst (run (fst (step s a)) rest),
   snd (step s a) :: snd (run (fst (step s a)) rest)).
Proof.
  cbn [run]. destruct (step s a) as [s1 r]. cbn [fst snd].
  destruct (run s1 rest) as [s2 rs]. reflexivity.
Qed.

Lemma run_length acts : forall s, length (snd (run s acts)) = length acts.
Proof.
  induction acts as [ | a rest IH ]; intros s; [ reflexivity | ].
  rewrite run_cons. cbn [snd length]. now rewrite IH.
Qed.

(** A property kept by every step holds after every run. *)
Lemma run_invariant (P : HockeyEnv -> Prop) :
  (forall s a, P s -> P (fst (step s a))) ->
  forall acts s, P s -> P (fst (run s acts)).
Proof.
  intros Hstep. induction acts as [ | a rest IH ]; intros s Hs; [ exact Hs | ].
  rewrite run_cons. cbn [fst]. apply IH, Hstep, Hs.
Qed.

(** The [k]-th result of a run is the result of stepping the state reached
    by the first [k] actions. *)
Lemma run_nth acts : forall s k r,
  nth_error (snd (run s acts)) k = Some r ->
  exists a, nth_error acts k = Some a /\
            r = snd (step (fst (run s (firstn k acts))) a).
Proof.
  induction acts as [ | a rest IH ]; intros s k r H.
  - destruct k; discriminate H.
  - rewrite run_cons in H. destruct k as [ | k ].
    + cbn in H. injection H as <-. exists a. split; reflexivity.
    + cbn [snd nth_error] in H. apply IH in H as (a' & Ha' & ->).
      exists a'. split; [ exact Ha' | ].
      cbn [firstn]. rewrite run_cons. reflexivity.
Qed.

Lemma step_counts s a :
  episode_step (fst (step s a)) = (episode_step s + 1)%Z /\
  max_steps (fst (step s a)) = max_steps s.
Proof. rewrite step_state. split; reflexivity. Qed.

Lemma run_counts acts : forall s,
  episode_step (fst (run s acts)) = (episode_step s + Z.of_nat (length acts))%Z /\
  max_steps (fst (run s acts)) = max_steps s.
Proof.
  induction acts as [ | a rest IH ]; intros s.
  - cbn. split; [ lia | reflexivity ].
  - rewrite run_cons. cbn [fst length].
    destruct (IH (fst (step s a))) as [He Hm].
    destruct (step_counts s a) as [He1 Hm1].
    rewrite He, Hm, He1, Hm1. split; [ lia | reflexivity ].
Qed.

(** The state in which the [k]-th step of a run starts has counted [k]
    steps. *)
Lemma run_prefix_counts acts s k a :
  nth_error acts k = Some a ->
  episode_step (fst (run s (firstn k acts))) = (episode_step s + Z.of_nat k)%Z /\
  max_steps (fst (run s (firstn k acts))) = max_steps s.
Proof.
  intros Ha.
  assert (Hk : (k < length acts)%nat) by (apply nth_error_Some; congruence).
  destruct (run_counts (firstn k acts) s) as [He Hm].
  rewrite He, Hm, length_firstn, Nat.min_l by lia. split; reflexivity.
Qed.

(** ** The puck on its way *)

(** Friction and time step balance: [x + 2 * vx] never changes, because
    [0.02 / (1 - 0.99) = 2]. *)
Definition puck_inv (c : R) (s : HockeyEnv) : Prop :=
  fst (puck_pos s) + 2 * fst (puck_vel s) = c /\ 0 < fst (puck_vel s) <= 2.

Lemma puck_inv_step c s a : puck_inv c s -> puck_inv c (fst (step s a)).
Proof.
  unfold puck_inv. rewrite step_state. cbn. lra.
Qed.

Lemma puck_inv_run c s acts : puck_inv c s -> puck_inv c (fst (run s acts)).
Proof. apply run_invariant. intros; now apply puck_inv_step. Qed.

Lemma puck_inv_move c s a : puck_inv c s -> puck_inv c (move s a).
Proof. unfold puck_inv. cbn. lra. Qed.

Lemma puck_inv_range s : puck_inv (-1) s -> -5 <= fst (puck_pos s) < -1.
Proof. unfold puck_inv. lra. Qed.

Lemma not_miss_in_range s : -8 <= fst (puck_pos s) <= 8 -> is_miss s = false.
Proof.
  intros H. unfold is_miss. apply Rgtb_false.
  unfold Rabs. destruct (Rcase_abs _); lra.
Qed.

Lemma not_goal_left s : fst (puck_pos s) <= 7 -> is_goal s = false.
Proof.
  intros H. unfold is_goal. apply andb_false_iff. right.
  now apply Rgtb_false.
Qed.

Lemma not_save_left s : fst (puck_pos s) <= 6 -> _check_save s = false.
Proof.
  intros H. unfold _check_save. cbv zeta.
  apply andb_false_iff. right. apply andb_false_iff. left.
  now apply Rgtb_false.
Qed.

Lemma reset_state self seed g :
  let env0 := fst (fst (reset self seed g)) in
  goalie_pos env0 = (0.0, 0.0) /\ puck_pos env0 = (-5.0, 0.0) /\
  fst (puck_vel env0) = 2.0 /\
  episode_step env0 = 0%Z /\ max_steps env0 = 300%Z.
Proof. cbn. repeat split. Qed.

Lemma reset_puck_inv self seed g : puck_inv (-1) (fst (fst (reset self seed g))).
Proof. unfold puck_inv. cbn. lra. Qed.

(** ** Outcomes, as the specification names them *)

Inductive Outcome : Type := ACTIVE | MISS | GOAL | SAVE | TIMEOUT.

(** The label under ["result"] in [info]; an active step writes none. *)
Definition label (o : Outcome) : option string :=
  match o with
  | ACTIVE => None
  | MISS => Some "miss"
  | GOAL => Some "goal"
  | SAVE => Some "save"
  | TIMEOUT => Some "timeout"
  end%string.

Definition terminal (o : Outcome) : bool :=
  match o with ACTIVE => false | _ => true end.

(** The reward table of the specification; [shaping_reward] is the reward
    of a step that does not end the episode. *)
Definition reward_table (o : Outcome) (shaping_reward : R) : R :=
  match o with
  | ACTIVE => shaping_reward
  | MISS => 50
  | GOAL => -200
  | SAVE => 200
  | TIMEOUT => -10
  end.

(** The six state features at the front of an observation. *)
Definition live_features (s : HockeyEnv) : list R :=
  [ fst (goalie_pos s); snd (goalie_pos s);
    fst (puck_pos s); snd (puck_pos s);
    fst (puck_vel s); snd (puck_vel s) ].

(** A state on its 300th step whose puck is already out of bounds. *)
Definition out_at_limit : HockeyEnv :=
  {| goalie_pos := (0.0, 0.0); puck_pos := (9.0, 0.0); puck_vel := (0.0, 0.0);
     episode_step := 299; max_steps := 300; puck_shot := false;
     np_random := None |}.

Definition zero_action : np.vec2 := (0, 0).

(** ** Properties of one step *)

(** C1: the step-limit test comes after the MISS/GOAL/SAVE tests and is
    unconditional.  Whenever the incremented counter reaches [max_steps],
    the step returns reward -10, a true terminal flag and the label
    "timeout" as the only entry of [info], whatever the in-step tests
    found on that step. *)
Theorem step_limit_overrides self action :
  (max_steps self <= episode_step self + 1)%Z ->
  let r := snd (step self action) in
  reward r = -10 /\ done r = true /\ info r = [("result", "timeout")]%string.
Proof.
  intros Hle r. subst r. rewrite (step_at_limit self action Hle).
  repeat split.
Qed.

Lemma step_limit_overrides_witness :
  (max_steps out_at_limit <= episode_step out_at_limit + 1)%Z /\
  is_miss (move out_at_limit zero_action) = true /\
  reward (snd (step out_at_limit zero_action)) = -10 /\
  done (snd (step out_at_limit zero_action)) = true /\
  info (snd (step out_at_limit zero_action)) = [("result", "timeout")]%string.
Proof.
  split; [ cbn; lia | ]. split.
  - apply Rgtb_true. cbn. unfold Rabs. destruct (Rcase_abs _); lra.
  - apply (step_limit_overrides out_at_limit zero_action). cbn. lia.
Defined.

(** C6: the reward of a step is fixed by its outcome: 50 for "miss",
    -200 for "goal", 200 for "save", -10 for "timeout", each replacing the
    proximity reward; a step that does not end the episode returns
    [max(0, 10 - distance) * 0.1] with the distance measured on the
    positions the step leaves. *)
Theorem reward_exact self action :
  let env1 := fst (step self action) in
  let r := snd (step self action) in
  exists o : Outcome,
    result_of r = label o /\
    done r = terminal o /\
    reward r = reward_table o
      (Rmax 0 (10 - np.norm (np.sub (puck_pos env1) (goalie_pos env1))) * 0.1).
Proof.
  cbv zeta. rewrite step_state.
  change (Rmax 0 _ * 0.1) with (shaping (move self action)).
  destruct (Z_lt_le_dec (episode_step self + 1) (max_steps self)) as [Hlt | Hle].
  - rewrite (step_below_limit self action Hlt). cbv zeta.
    destruct (is_miss _); [ exists MISS; repeat split | ].
    destruct (is_goal _); [ exists GOAL; repeat split | ].
    destruct (_check_save _); [ exists SAVE; repeat split | ].
    exists ACTIVE. repeat split.
  - rewrite (step_at_limit self action Hle). exists TIMEOUT. repeat split.
Qed.

(** C7: after every step, for every action, the goalie is inside the
    arena: x in [-2, 2] and z in [-1.5, 1.5]. *)
Theorem goalie_stays_in_arena self action :
  let g := goalie_pos (fst (step self action)) in
  -2.0 <= fst g <= 2.0 /\ -1.5 <= snd g <= 1.5.
Proof.
  rewrite step_state. exact (move_goalie_bounds self action).
Qed.

(** C8: with the goalie inside the arena the save test fails, since it
    asks for a puck beyond x = 6 within distance 1 of a goalie at x <= 2;
    so no step returns the label "save" or the reward 200. *)
Theorem save_never_returned :
  (forall s,
     -2.0 <= fst (goalie_pos s) <= 2.0 /\ -1.5 <= snd (goalie_pos s) <= 1.5 ->
     _check_save s = false) /\
  (forall self action,
     _check_save (move self action) = false /\
     result_of (snd (step self action)) <> Some "save"%string /\
     reward (snd (step self action)) <> 200).
Proof.
  split.
  - intros s Hs. apply check_save_false. lra.
  - intros self action. split; [ apply move_no_save | ].
    destruct (Z_lt_le_dec (episode_step self + 1) (max_steps self)) as [Hlt | Hle].
    + rewrite (step_below_limit self action Hlt). cbv zeta.
      rewrite move_no_save.
      pose proof (shaping_le_1 (move self action)).
      destruct (is_miss _); [ | destruct (is_goal _) ];
        (split; [ discriminate | cbn [reward]; lra ]).
    + rewrite (step_at_limit self action Hle).
      split; [ discriminate | cbn [reward]; lra ].
Qed.

Lemma save_never_returned_witness :
  (-2.0 <= fst (goalie_pos out_at_limit) <= 2.0 /\
   -1.5 <= snd (goalie_pos out_at_limit) <= 1.5) /\
  _check_save out_at_limit = false.
Proof.
  assert (H : -2.0 <= fst (goalie_pos out_at_limit) <= 2.0 /\
              -1.5 <= snd (goalie_pos out_at_limit) <= 1.5) by (cbn; lra).
  split; [ exact H | exact (proj1 save_never_returned out_at_limit H) ].
Defined.

(** C9: the observation returned by [reset] and by every [step] has 12
    elements: goalie x, goalie z, puck x, puck z, puck-velocity x and
    puck-velocity z of the state just produced, then six zeros. *)
Theorem observation_layout self seed g action :
  let env0 := fst (fst (reset self seed g)) in
  let obs0 := fst (snd (fst (reset self seed g))) in
  let env1 := fst (step self action) in
  let obs1 := observation (snd (step self action)) in
  (length obs0 = 12%nat /\ obs0 = live_features env0 ++ repeat 0 6) /\
  (length obs1 = 12%nat /\ obs1 = live_features env1 ++ repeat 0 6).
Proof.
  cbv zeta. rewrite step_result_obs, step_state. repeat split.
Qed.

(** ** Properties of whole episodes *)

Lemma run_app l1 : forall s l2,
  fst (run s (l1 ++ l2)) = fst (run (fst (run s l1)) l2).
Proof.
  induction l1 as [ | a l1 IH ]; intros s l2; [ reflexivity | ].
  rewrite <- app_comm_cons, !run_cons. cbn [fst]. apply IH.
Qed.

Lemma Forall_by_index {A} (P : A -> Prop) (l : list A) :
  (forall k x, nth_error l k = Some x -> P x) -> Forall P l.
Proof.
  intros H. apply Forall_forall. intros x Hin.
  apply In_nth_error in Hin as [k Hk]. exact (H k x Hk).
Qed.

(** The [k]-th result, the state its step starts from, and that state's
    counters. *)
Lemma result_at s acts k r :
  nth_error (snd (run s acts)) k = Some r ->
  exists a sk,
    nth_error acts k = Some a /\
    sk = fst (run s (firstn k acts)) /\
    r = snd (step sk a) /\
    episode_step sk = (episode_step s + Z.of_nat k)%Z /\
    max_steps sk = max_steps s.
Proof.
  intros H. apply run_nth in H as (a & Ha & Hr).
  destruct (run_prefix_counts acts s k a Ha) as [He Hm].
  exists a, (fst (run s (firstn k acts))). repeat split; assumption.
Qed.

(** From the step limit on, every result is a timeout. *)
Lemma late_result s acts k r :
  nth_error (snd (run s acts)) k = Some r ->
  (max_steps s <= episode_step s + Z.of_nat k + 1)%Z ->
  reward r = -10 /\ done r = true /\ info r = [("result", "timeout")]%string.
Proof.
  intros H Hk. apply result_at in H as (a & sk & _ & _ & -> & He & Hm).
  rewrite step_at_limit by lia. repeat split.
Qed.

(** Below the step limit, a puck launched as [reset] launches it ends no
    episode. *)
Lemma early_result s acts k r :
  puck_inv (-1) s ->
  nth_error (snd (run s acts)) k = Some r ->
  (episode_step s + Z.of_nat k + 1 < max_steps s)%Z ->
  done r = false /\ info r = [] /\ 0 <= reward r <= 1.
Proof.
  intros Hinv H Hk. apply result_at in H as (a & sk & _ & Hsk & -> & He & Hm).
  assert (Hmv : puck_inv (-1) (move sk a)).
  { apply puck_inv_move. subst sk. now apply puck_inv_run. }
  apply puck_inv_range in Hmv.
  rewrite step_below_limit by lia. cbv zeta.
  rewrite not_miss_in_range, not_goal_left, not_save_left by lra.
  cbn [done info reward].
  pose proof (shaping_le_1 (move sk a)). pose proof (shaping_nonneg (move sk a)).
  repeat split; lra.
Qed.

(** C10: an episode begun by [reset] counts its steps from 0, one per
    call, and the 300th call returns a true terminal flag for every action
    sequence; so does every later call. *)
Theorem episode_terminates self seed g actions :
  let env0 := fst (fst (reset self seed g)) in
  (300 <= length actions)%nat ->
  episode_step env0 = 0%Z /\ max_steps env0 = 300%Z /\
  (forall n, (n <= length actions)%nat ->
     episode_step (fst (run env0 (firstn n actions))) = Z.of_nat n) /\
  (exists r, nth_error (snd (run env0 actions)) 299 = Some r /\ done r = true) /\
  (forall k r, nth_error (snd (run env0 actions)) k = Some r ->
     (299 <= k)%nat -> done r = true).
Proof.
  intros env0 Hlen.
  assert (Hlate : forall k r, nth_error (snd (run env0 actions)) k = Some r ->
                              (299 <= k)%nat -> done r = true).
  { intros k r Hr Hk. apply (late_result env0 actions k r Hr). cbn. lia. }
  split; [ reflexivity | ]. split; [ reflexivity | ]. split; [ | split ].
  - intros n Hn. destruct (run_counts (firstn n actions) env0) as [He _].
    rewrite He, length_firstn, Nat.min_l by exact Hn. cbn. lia.
  - destruct (nth_error (snd (run env0 actions)) 299) as [r | ] eqn:Hr.
    + exists r. split; [ reflexivity | ]. apply (Hlate 299%nat r Hr). lia.
    + apply nth_error_None in Hr. rewrite run_length in Hr. lia.
  - exact Hlate.
Qed.

Lemma episode_terminates_witness :
  (300 <= length (repeat zero_action 300))%nat /\
  exists r,
    nth_error
      (snd (run (fst (fst (reset blank None (fun _ => 0.5))))
                (repeat zero_action 300))) 299 = Some r /\
    done r = true.
Proof.
  assert (H : (300 <= length (repeat zero_action 300))%nat)
    by (rewrite repeat_length; lia).
  split; [ exact H | ].
  exact (proj1 (proj2 (proj2 (proj2
    (episode_terminates blank None (fun _ => 0.5) (repeat zero_action 300) H))))).
Defined.

(** C2: from every state produced by [reset], whatever the actions, the
    puck's x-coordinate stays in [-5, -1); the miss, goal and save tests
    fail in every state reached; the first 299 steps do not end the
    episode and the 300th returns "timeout" with reward -10. *)
Theorem every_episode_times_out self seed g actions :
  let env0 := fst (fst (reset self seed g)) in
  let envN := fst (run env0 actions) in
  let results := snd (run env0 actions) in
  -5 <= fst (puck_pos envN) < -1 /\
  is_miss envN = false /\ is_goal envN = false /\ _check_save envN = false /\
  length results = length actions /\
  Forall (fun r => done r = false /\ result_of r = None)
         (firstn 299 results) /\
  Forall (fun r => done r = true /\ result_of r = Some "timeout"%string /\
                   reward r = -10)
         (skipn 299 results).
Proof.
  intros env0 envN results.
  assert (Hinv : puck_inv (-1) env0) by apply reset_puck_inv.
  assert (Hrange : -5 <= fst (puck_pos envN) < -1).
  { apply puck_inv_range. subst envN. now apply puck_inv_run. }
  split; [ exact Hrange | ].
  rewrite not_miss_in_range, not_goal_left, not_save_left by lra.
  repeat split.
  - apply run_length.
  - apply Forall_by_index. intros k r Hr.
    rewrite nth_error_firstn in Hr.
    destruct (Nat.ltb_spec k 299) as [Hk | Hk]; [ | discriminate Hr ].
    destruct (early_result env0 actions k r Hinv Hr) as (Hd & Hi & _).
    { cbn. lia. }
    unfold result_of. rewrite Hi. split; [ exact Hd | reflexivity ].
  - apply Forall_by_index. intros k r Hr.
    rewrite nth_error_skipn in Hr.
    destruct (late_result env0 actions _ r Hr) as (Hw & Hd & Hi).
    { cbn. lia. }
    unfold result_of. rewrite Hi. repeat split; assumption.
Qed.

(** ** The straight-shot scenario *)

(** A reset state whose lateral draw came out as 0: puck at (-5, 0) with
    velocity (2, 0), goalie at the origin. *)
Definition scenario_start : HockeyEnv :=
  {| goalie_pos := (0.0, 0.0); puck_pos := (-5.0, 0.0); puck_vel := (2.0, 0.0);
     episode_step := 0; max_steps := 300; puck_shot := false;
     np_random := None |}.

Definition goalie_at_origin (s : HockeyEnv) : Prop :=
  fst (goalie_pos s) = 0 /\ snd (goalie_pos s) = 0.

Lemma scenario_puck_inv : puck_inv (-1) scenario_start.
Proof. unfold puck_inv. cbn. lra. Qed.

Lemma goalie_rests s : goalie_at_origin s -> goalie_at_origin (fst (step s zero_action)).
Proof.
  unfold goalie_at_origin. intros [Hx Hz]. rewrite step_state. cbn.
  rewrite Hx, Hz, !clip1_id by lra. lra.
Qed.

Lemma goalie_rests_run n s :
  goalie_at_origin s -> goalie_at_origin (fst (run s (repeat zero_action n))).
Proof.
  revert s. induction n as [ | n IH ]; intros s Hs; [ exact Hs | ].
  cbn [repeat]. rewrite run_cons. cbn [fst]. apply IH, goalie_rests, Hs.
Qed.

(** One more zero action moves the puck right by [0.02 * vx > 0]. *)
Lemma puck_advances c s n :
  puck_inv c s ->
  fst (puck_pos (fst (run s (repeat zero_action n)))) <
  fst (puck_pos (fst (run s (repeat zero_action (S n))))).
Proof.
  intros Hinv.
  replace (repeat zero_action (S n)) with (repeat zero_action n ++ [zero_action])
    by (symmetry; apply (repeat_cons n zero_action)).
  rewrite run_app. cbn [run].
  pose proof (puck_inv_run c s (repeat zero_action n) Hinv) as [_ Hv].
  destruct (step _ zero_action) as [s1 r] eqn:Hstep.
  assert (Hs1 : s1 = fst (step (fst (run s (repeat zero_action n))) zero_action))
    by now rewrite Hstep.
  cbn [fst]. rewrite Hs1, step_state. cbn. lra.
Qed.

(** C5, as the code has it: from puck (-5, 0) with velocity (2, 0) and the
    goalie at the origin, zero actions leave the goalie where it is and
    move the puck right at every step, yet always short of x = -1; no step
    before the 300th ends the episode, and the 300th ends it with
    "timeout" and reward -10. *)
Theorem zero_action_scenario n :
  let state k := fst (run scenario_start (repeat zero_action k)) in
  let results := snd (run scenario_start (repeat zero_action n)) in
  fst (puck_pos (state n)) < fst (puck_pos (state (S n))) /\
  fst (puck_pos (state (S n))) < -1 /\
  goalie_at_origin (state n) /\
  length results = n /\
  Forall (fun r => done r = false /\ result_of r = None)
         (firstn 299 results) /\
  Forall (fun r => done r = true /\ result_of r = Some "timeout"%string /\
                   reward r = -10)
         (skipn 299 results).
Proof.
  intros state results. subst state results.
  split; [ apply (puck_advances (-1)), scenario_puck_inv | ].
  split; [ apply puck_inv_range, puck_inv_run, scenario_puck_inv | ].
  split; [ apply goalie_rests_run; split; cbn; lra | ].
  split; [ rewrite run_length; apply repeat_length | ].
  split; apply Forall_by_index; intros k r Hr.
  - rewrite nth_error_firstn in Hr.
    destruct (Nat.ltb_spec k 299) as [Hk | Hk]; [ | discriminate Hr ].
    destruct (early_result _ _ k r scenario_puck_inv Hr) as (Hd & Hi & _).
    { cbn. lia. }
    unfold result_of. rewrite Hi. split; [ exact Hd | reflexivity ].
  - rewrite nth_error_skipn in Hr.
    destruct (late_result _ _ _ r Hr) as (Hw & Hd & Hi).
    { cbn. lia. }
    unfold result_of. rewrite Hi. repeat split; assumption.
Qed.

(** The scenario never reaches x = 8 and never reports a miss; its 300th
    step reports a timeout. *)
Lemma zero_action_scenario_never_misses :
  ~ (exists n,
       8 < fst (puck_pos (fst (run scenario_start (repeat zero_action n))))) /\
  ~ (exists n k r,
       nth_error (snd (run scenario_start (repeat zero_action n))) k = Some r /\
       result_of r = Some "miss"%string) /\
  exists r,
    nth_error (snd (run scenario_start (repeat zero_action 300))) 299 = Some r /\
    result_of r = Some "timeout"%string /\ reward r = -10.
Proof.
  split; [ | split ].
  - intros [n Hn].
    pose proof (puck_inv_range _
      (puck_inv_run _ _ (repeat zero_action n) scenario_puck_inv)). lra.
  - intros (n & k & r & Hr & Hmiss).
    destruct (Z_lt_le_dec (Z.of_nat k + 1) 300) as [Hk | Hk].
    + destruct (early_result _ _ k r scenario_puck_inv Hr) as (_ & Hi & _).
      { cbn. lia. }
      unfold result_of in Hmiss. rewrite Hi in Hmiss. discriminate Hmiss.
    + destruct (late_result _ _ k r Hr) as (_ & _ & Hi).
      { cbn. lia. }
      unfold result_of in Hmiss. rewrite Hi in Hmiss. discriminate Hmiss.
  - destruct (nth_error (snd (run scenario_start (repeat zero_action 300))) 299)
      as [r | ] eqn:Hr.
    + exists r. destruct (late_result _ _ _ r Hr) as (Hw & _ & Hi).
      { cbn. lia. }
      unfold result_of. rewrite Hi. repeat split. exact Hw.
    + apply nth_error_None in Hr. rewrite run_length, repeat_length in Hr. lia.
Qed.

(** ** Actions outside [-1, 1] *)

(** The element-wise clamp to [-1, 1] that the specification describes for
    raw actions.  [step] does not call it. *)
Definition clamp_action (raw : np.vec2) : np.vec2 :=
  np.clip raw (-1, -1) (1, 1).

Definition in_arena (g : np.vec2) : Prop :=
  -2.0 <= fst g <= 2.0 /\ -1.5 <= snd g <= 1.5.

Lemma clip1_shift g d lo hi :
  lo <= g <= hi -> Rabs (np.clip1 (g + d) lo hi - g) <= Rabs d.
Proof.
  intros H. unfold np.clip1, Rmin, Rmax, Rabs.
  destruct (Rle_dec (g + d) lo); destruct (Rle_dec _ hi);
    destruct (Rcase_abs _); destruct (Rcase_abs d); lra.
Qed.

(** C4, as the code has it: [step] scales the raw action by 0.1, adds it
    to the goalie position and clamps the position to the arena; the
    action itself is not clamped.  From a goalie inside the arena the
    displacement along each axis is at most 0.1 times the magnitude of
    that action component, and [step] returns a result for every action. *)
Theorem action_applied_unclamped self action :
  in_arena (goalie_pos self) ->
  let g := goalie_pos self in
  let g' := goalie_pos (fst (step self action)) in
  g' = np.clip (np.add g (np.scale action 0.1)) (-2.0, -1.5) (2.0, 1.5) /\
  Rabs (fst g' - fst g) <= 0.1 * Rabs (fst action) /\
  Rabs (snd g' - snd g) <= 0.1 * Rabs (snd action) /\
  exists r, step self action = (fst (step self action), r).
Proof.
  intros [Hx Hz] g g'. subst g g'. rewrite step_state.
  split; [ reflexivity | ].
  assert (Hscale : forall a, Rabs (a * 0.1) = 0.1 * Rabs a).
  { intros a. rewrite Rabs_mult, (Rabs_right 0.1) by lra. lra. }
  cbn [move goalie_pos tick np.clip np.add np.scale fst snd].
  rewrite <- !Hscale.
  split; [ apply clip1_shift; lra | ].
  split; [ apply clip1_shift; lra | ].
  exists (snd (step self action)). rewrite <- step_state.
  apply surjective_pairing.
Qed.

Lemma action_applied_unclamped_witness :
  in_arena (goalie_pos scenario_start) /\
  Rabs (fst (goalie_pos (fst (step scenario_start (10, 0)))) -
        fst (goalie_pos scenario_start)) <= 0.1 * Rabs 10.
Proof.
  assert (H : in_arena (goalie_pos scenario_start)) by (unfold in_arena; cbn; lra).
  split; [ exact H | ].
  exact (proj1 (proj2 (action_applied_unclamped scenario_start (10, 0) H))).
Defined.

(** An action of 10 along x carries the goalie from 0 to 1 in one step:
    ten times the 0.1 a clamped action could give. *)
Lemma raw_action_moves_goalie_too_far :
  let s1 := fst (step scenario_start (10, 0)) in
  fst (goalie_pos s1) = 1 /\
  ~ Rabs (fst (goalie_pos s1) - fst (goalie_pos scenario_start)) <= 0.1 /\
  fst (goalie_pos s1) <>
  fst (goalie_pos (fst (step scenario_start (clamp_action (10, 0))))).
Proof.
  cbv zeta. rewrite !step_state.
  cbn [move goalie_pos tick scenario_start clamp_action
       np.clip np.add np.scale fst snd].
  assert (H1 : np.clip1 (0.0 + 10 * 0.1) (-2.0) 2.0 = 1)
    by (rewrite clip1_id; lra).
  assert (H2 : np.clip1 10 (-1) 1 = 1).
  { unfold np.clip1, Rmin, Rmax.
    destruct (Rle_dec 10 (-1)); destruct (Rle_dec _ 1); lra. }
  assert (H3 : np.clip1 (0.0 + 1 * 0.1) (-2.0) 2.0 = 0.1)
    by (rewrite clip1_id; lra).
  rewrite H1, H2, H3.
  split; [ reflexivity | ]. split; [ | lra ].
  unfold Rabs. destruct (Rcase_abs _); lra.
Qed.

(** ** Seeding *)

(** Two states of the process-global generator: one about to hand out the
    unit sample 0, the other 0.5. *)
Definition rng_low : np.RandomState := fun _ => 0.
Definition rng_mid : np.RandomState := fun _ => 0.5.

(** C3 fails on the code: the lateral velocity comes from the global
    generator and does not depend on the seed; with the same seed and two
    states of the global generator, [reset] returns different
    observations, and so does the first step. *)
Theorem reset_not_seed_deterministic :
  (forall self seed seed' g,
     puck_vel (fst (fst (reset self seed g))) =
     puck_vel (fst (fst (reset self seed' g)))) /\
  let run1 := reset blank (Some 42%Z) rng_low in
  let run2 := reset blank (Some 42%Z) rng_mid in
  fst (snd (fst run1)) <> fst (snd (fst run2)) /\
  observation (snd (step (fst (fst run1)) zero_action)) <>
  observation (snd (step (fst (fst run2)) zero_action)).
Proof.
  split; [ reflexivity | ]. cbv zeta. split.
  - intros H. apply (f_equal (fun l => nth 5 l 0)) in H. cbn in H.
    unfold rng_low, rng_mid in H. lra.
  - rewrite !step_result_obs. intros H.
    apply (f_equal (fun l => nth 5 l 0)) in H. cbn in H.
    unfold rng_low, rng_mid in H. lra.
Qed.

(** ** Further properties of [step] and [reset] *)

Lemma Rabs_le_iff_between x b : Rabs x <= b <-> - b <= x <= b.
Proof. unfold Rabs. destruct (Rcase_abs x); split; intros; lra. Qed.

Lemma is_miss_true s : is_miss s = true <-> 8 < Rabs (fst (puck_pos s)).
Proof. unfold is_miss. apply Rgtb_true. Qed.

Lemma is_goal_true s :
  is_goal s = true <->
  Rabs (snd (puck_pos s)) < 0.5 /\ 7 < fst (puck_pos s).
Proof.
  unfold is_goal. rewrite andb_true_iff, Rltb_true, Rgtb_true. reflexivity.
Qed.

Ltac rabs_lra :=
  unfold Rabs in *; repeat destruct (Rcase_abs _); lra.

(** The label of a step below the step limit, read off the positions the
    step leaves. *)
Lemma label_below_limit self action :
  (episode_step self + 1 < max_steps self)%Z ->
  result_of (snd (step self action)) =
  (if is_miss (move self action) then Some "miss"
   else if is_goal (move self action) then Some "goal"
   else None)%string.
Proof.
  intros Hlt. rewrite (step_below_limit self action Hlt). cbv zeta.
  rewrite move_no_save.
  destruct (is_miss _); [ reflexivity | ]. destruct (is_goal _); reflexivity.
Qed.

(** X1: which label a step reports.  "timeout" exactly when the incremented
    counter reaches the limit; below the limit, "miss" exactly when the
    puck ends the step with |x| > 8, "goal" exactly when it ends with
    7 < x <= 8 and |z| < 0.5 (further out the miss test wins), and no
    label in every other case. *)
Theorem step_label_cases self action :
  let s := fst (step self action) in
  let r := snd (step self action) in
  let x := fst (puck_pos s) in
  let z := snd (puck_pos s) in
  let below := (episode_step self + 1 < max_steps self)%Z in
  (result_of r = Some "timeout"%string <-> ~ below) /\
  (result_of r = Some "miss"%string <-> below /\ 8 < Rabs x) /\
  (result_of r = Some "goal"%string <-> below /\ 7 < x <= 8 /\ Rabs z < 0.5) /\
  (result_of r = None <-> below /\ Rabs x <= 8 /\ ~ (7 < x /\ Rabs z < 0.5)).
Proof.
  cbv zeta. rewrite step_state.
  change (puck_pos (tick (move self action))) with (puck_pos (move self action)).
  destruct (Z_lt_le_dec (episode_step self + 1) (max_steps self)) as [Hlt | Hle].
  - rewrite (label_below_limit self action Hlt).
    pose proof (is_miss_true (move self action)) as Hm.
    pose proof (is_goal_true (move self action)) as Hg.
    destruct (is_miss (move self action)).
    + assert (Hx : 8 < Rabs (fst (puck_pos (move self action))))
        by now apply Hm.
      split; [ split; [ discriminate | intros H; contradiction ] | ].
      split; [ split; [ intros _; split; assumption | reflexivity ] | ].
      split; (split; [ discriminate | ]).
      * intros (_ & H & _). rabs_lra.
      * intros (_ & H & _). lra.
    + assert (Hx : Rabs (fst (puck_pos (move self action))) <= 8).
      { apply Rnot_lt_le. intros H. apply Hm in H. discriminate H. }
      split; [ split; [ | intros H; contradiction ] | ].
      { destruct (is_goal _); discriminate. }
      split; [ split; [ | intros [_ H]; lra ] | ].
      { destruct (is_goal _); discriminate. }
      destruct (is_goal (move self action)).
      * destruct Hg as [Hg _]. specialize (Hg eq_refl).
        split; split; try discriminate; try reflexivity.
        -- intros _. split; [ exact Hlt | ]. split; [ rabs_lra | tauto ].
        -- intros (_ & _ & H). tauto.
      * assert (Hng : ~ (7 < fst (puck_pos (move self action)) /\
                         Rabs (snd (puck_pos (move self action))) < 0.5)).
        { intros H. destruct Hg as [_ Hg]. discriminate Hg. tauto. }
        split; split; try discriminate; try reflexivity.
        -- intros (_ & H1 & H2). tauto.
        -- intros _. split; [ exact Hlt | ]. split; assumption.
  - rewrite (step_at_limit self action Hle).
    split; [ split; [ intros _; lia | reflexivity ] | ].
    split; [ | split ]; (split; [ discriminate | intros [H _]; lia ]).
Qed.

Lemma step_label_cases_witness :
  ~ (episode_step out_at_limit + 1 < max_steps out_at_limit)%Z /\
  result_of (snd (step out_at_limit zero_action)) = Some "timeout"%string.
Proof.
  assert (H : ~ (episode_step out_at_limit + 1 < max_steps out_at_limit)%Z)
    by (cbn; lia).
  split; [ exact H | ].
  exact (proj2 (proj1 (step_label_cases out_at_limit zero_action)) H).
Defined.

(** X2: every reward [step] returns is 50, -200, -10, or a proximity
    reward between 0 and 1; in particular it lies in [-200, 50]. *)
Theorem step_reward_range self action :
  let w := reward (snd (step self action)) in
  (w = 50 \/ w = -200 \/ w = -10 \/ 0 <= w <= 1) /\ -200 <= w <= 50.
Proof.
  cbv zeta.
  assert (H : let w := reward (snd (step self action)) in
              w = 50 \/ w = -200 \/ w = -10 \/ 0 <= w <= 1).
  { cbv zeta.
    destruct (Z_lt_le_dec (episode_step self + 1) (max_steps self)) as [Hlt | Hle].
    - rewrite (step_below_limit self action Hlt). cbv zeta.
      rewrite move_no_save.
      destruct (is_miss _); [ now left | ].
      destruct (is_goal _); [ now right; left | ].
      right; right; right. cbn [reward].
      split; [ apply shaping_nonneg | apply shaping_le_1 ].
    - rewrite (step_at_limit self action Hle). now right; right; left. }
  cbv zeta in H. split; [ exact H | ]. lra.
Qed.

(** *** The puck ignores the goalie *)

Lemma scale_1 v : np.scale v 1 = v.
Proof. destruct v as [x z]. unfold np.scale. cbn. f_equal; lra. Qed.

Lemma run_snoc s acts a :
  fst (run s (acts ++ [a])) = fst (step (fst (run s acts)) a).
Proof.
  rewrite run_app. cbn [run].
  destruct (step (fst (run s acts)) a) as [s1 r]. reflexivity.
Qed.

(** After [n] steps the velocity is the initial one times [0.99 ^ n] and
    the puck has moved by the initial velocity times [2 (1 - 0.99 ^ n)]. *)
Lemma run_puck acts : forall s,
  puck_vel (fst (run s acts)) = np.scale (puck_vel s) (0.99 ^ length acts) /\
  puck_pos (fst (run s acts)) =
  np.add (puck_pos s) (np.scale (puck_vel s) (2 * (1 - 0.99 ^ length acts))).
Proof.
  induction acts as [ | a rest IH ]; intros s.
  - cbn [run fst length pow]. rewrite scale_1. split; [ reflexivity | ].
    destruct (puck_pos s) as [x z]. unfold np.add, np.scale. cbn. f_equal; lra.
  - rewrite run_cons. cbn [fst length].
    destruct (IH (fst (step s a))) as [Hv Hp]. rewrite Hv, Hp, step_state.
    cbn [tick move puck_vel puck_pos np.scale np.add fst snd pow].
    unfold np.add, np.scale. cbn [fst snd].
    generalize (0.99 ^ length rest). intros p. split; f_equal; lra.
Qed.

(** X3: the puck's path is fixed at launch.  After any [n] actions its
    velocity is the starting velocity times [0.99 ^ n] and its position is
    the starting position plus the starting velocity times
    [2 * (1 - 0.99 ^ n)]: no action, and no goalie position, changes it. *)
Theorem puck_closed_form s actions :
  let n := length actions in
  let s' := fst (run s actions) in
  puck_vel s' = np.scale (puck_vel s) (0.99 ^ n) /\
  puck_pos s' = np.add (puck_pos s) (np.scale (puck_vel s) (2 * (1 - 0.99 ^ n))).
Proof. exact (run_puck actions s). Qed.

Lemma norm_scale v k : 0 <= k -> np.norm (np.scale v k) = k * np.norm v.
Proof.
  intros Hk. unfold np.norm, np.scale. cbn [fst snd].
  replace (fst v * k * (fst v * k) + snd v * k * (snd v * k))
    with (k * k * (fst v * fst v + snd v * snd v)) by lra.
  rewrite sqrt_mult_alt by nra. now rewrite sqrt_square.
Qed.

Lemma pow_099_range n : 0 < 0.99 ^ n <= 1.
Proof.
  induction n as [ | n IH ]; cbn [pow]; [ lra | ]. nra.
Qed.

(** X4: friction only ever slows the puck.  Each step multiplies the speed
    (the Euclidean norm of the velocity) by 0.99, so after [n] steps the
    speed is [0.99 ^ n] times the starting speed and never above it. *)
Theorem puck_speed_decays s actions :
  let v0 := np.norm (puck_vel s) in
  let v := np.norm (puck_vel (fst (run s actions))) in
  v = 0.99 ^ length actions * v0 /\ v <= v0.
Proof.
  cbv zeta. destruct (run_puck actions s) as [Hv _]. rewrite Hv.
  pose proof (pow_099_range (length actions)) as Hp.
  rewrite norm_scale by lra.
  split; [ reflexivity | ].
  pose proof (norm_nonneg (puck_vel s)). nra.
Qed.

(** *** The goalie ignores the puck *)

Lemma run_goalie acts : forall s s',
  goalie_pos s = goalie_pos s' ->
  goalie_pos (fst (run s acts)) = goalie_pos (fst (run s' acts)).
Proof.
  induction acts as [ | a rest IH ]; intros s s' H; [ exact H | ].
  rewrite !run_cons. cbn [fst]. apply IH.
  rewrite !step_state. cbn [tick move goalie_pos]. now rewrite H.
Qed.

(** X5: the goalie's position after a run depends only on where it started
    and on the actions: two environments whose goalies start at the same
    place and receive the same actions keep their goalies together, however
    their pucks, counters and limits differ. *)
Theorem goalie_ignores_puck s s' actions :
  goalie_pos s = goalie_pos s' ->
  goalie_pos (fst (run s actions)) = goalie_pos (fst (run s' actions)).
Proof. apply run_goalie. Qed.

Lemma goalie_ignores_puck_witness :
  goalie_pos scenario_start = goalie_pos out_at_limit /\
  goalie_pos (fst (run scenario_start [(1, 1); (-3, 0.5)])) =
  goalie_pos (fst (run out_at_limit [(1, 1); (-3, 0.5)])).
Proof.
  assert (H : goalie_pos scenario_start = goalie_pos out_at_limit)
    by reflexivity.
  split; [ exact H | ].
  exact (goalie_ignores_puck scenario_start out_at_limit [(1, 1); (-3, 0.5)] H).
Defined.

(** *** [reset] starts over *)



(** *** The lateral draw *)

(** The sideways reach of the puck: [|z| + 2 |vz|] never grows. *)
Definition z_inv (s : HockeyEnv) : Prop :=
  Rabs (snd (puck_pos s)) + 2 * Rabs (snd (puck_vel s)) <= 1.

Lemma z_inv_move s a : z_inv s -> z_inv (move s a).
Proof.
  unfold z_inv. cbn [move puck_pos puck_vel np.add np.scale fst snd].
  intros H. rabs_lra.
Qed.

Lemma z_inv_step s a : z_inv s -> z_inv (fst (step s a)).
Proof. rewrite step_state. apply z_inv_move. Qed.

Lemma reset_lateral self seed g :
  0 <= g 0%nat < 1 ->
  -0.5 <= snd (puck_vel (fst (fst (reset self seed g)))) < 0.5.
Proof. cbn. lra. Qed.

Lemma reset_z_inv self seed g :
  0 <= g 0%nat < 1 -> z_inv (fst (fst (reset self seed g))).
Proof.
  intros Hg. pose proof (reset_lateral self seed g Hg) as Hl.
  unfold z_inv. cbn in *. rabs_lra.
Qed.

(** X7: when the global generator hands out a unit sample in [0, 1), the
    lateral velocity set by [reset] lies in [-0.5, 0.5), and through every
    run that follows the puck stays within |z| <= 1 and its lateral speed
    within 0.5. *)
Theorem lateral_stays_bounded self seed g actions :
  0 <= g 0%nat < 1 ->
  let env0 := fst (fst (reset self seed g)) in
  let envN := fst (run env0 actions) in
  -0.5 <= snd (puck_vel env0) < 0.5 /\
  Rabs (snd (puck_pos envN)) <= 1 /\
  Rabs (snd (puck_vel envN)) <= 0.5.
Proof.
  intros Hg env0 envN.
  split; [ exact (reset_lateral self seed g Hg) | ].
  assert (H : z_inv envN).
  { apply (run_invariant z_inv); [ intros; now apply z_inv_step | ].
    exact (reset_z_inv self seed g Hg). }
  unfold z_inv in H. rabs_lra.
Qed.

Lemma lateral_stays_bounded_witness :
  0 <= rng_mid 0%nat < 1 /\
  Rabs (snd (puck_pos
    (fst (run (fst (fst (reset blank None rng_mid))) [(1, 1); (-3, 0.5)]))))
  <= 1.
Proof.
  assert (H : 0 <= rng_mid 0%nat < 1) by (unfold rng_mid; lra).
  split; [ exact H | ].
  exact (proj1 (proj2
    (lateral_stays_bounded blank None rng_mid [(1, 1); (-3, 0.5)] H))).
Defined.

(** ** The test loop *)

Lemma norm_le a b :
  0 <= b -> fst a * fst a + snd a * snd a <= b * b -> np.norm a <= b.
Proof.
  intros Hb H. unfold np.norm.
  rewrite <- (sqrt_square b) by assumption. now apply sqrt_le_1_alt.
Qed.

(** A puck launched by [reset] with a lateral draw in range is never more
    than 7.5 away from a goalie inside the arena. *)
Lemma launched_shaping s a :
  puck_inv (-1) s -> z_inv s -> 0.25 <= shaping (move s a).
Proof.
  intros Hp Hz.
  pose proof (puck_inv_range _ (puck_inv_move _ s a Hp)) as Hx.
  pose proof (z_inv_move s a Hz) as Hz'.
  pose proof (move_goalie_bounds s a) as Hg. cbv zeta in Hg.
  assert (Hzb : -1 <= snd (puck_pos (move s a)) <= 1)
    by (unfold z_inv in Hz'; rabs_lra).
  assert (Hn : np.norm (np.sub (puck_pos (move s a)) (goalie_pos (move s a)))
               <= 7.5).
  { apply norm_le; [ lra | ]. cbn [np.sub fst snd].
    set (dx := fst (puck_pos (move s a)) - fst (goalie_pos (move s a))).
    set (dz := snd (puck_pos (move s a)) - snd (goalie_pos (move s a))).
    assert (-7 <= dx <= 1) by (subst dx; lra).
    assert (-2.5 <= dz <= 2.5) by (subst dz; lra).
    nra. }
  unfold shaping, Rmax. destruct (Rle_dec _ _); lra.
Qed.

Lemma reset_eq self seed g :
  reset self seed g =
  (fst (fst (reset self seed g)),
   (_get_observation (fst (fst (reset self seed g))), []),
   fun n => g (S n)).
Proof. reflexivity. Qed.

(** A launched puck ends no episode before the limit, so the loop cannot
    finish in fewer iterations than there are steps left. *)
Lemma test_episode_starves fuel : forall n model s obs acc,
  puck_inv (-1) s ->
  max_steps s = (episode_step s + Z.of_nat (S n))%Z ->
  (fuel <= n)%nat ->
  test_episode fuel model s obs acc = None.
Proof.
  induction fuel as [ | fuel IH ]; intros n model s obs acc Hinv Hmax Hfuel;
    [ reflexivity | ].
  destruct n as [ | n ]; [ lia | ].
  cbn [test_episode].
  destruct (step s (model obs)) as [s1 r] eqn:E.
  assert (Hs1 : s1 = fst (step s (model obs))) by now rewrite E.
  assert (Hr : r = snd (step s (model obs))) by now rewrite E.
  pose proof (puck_inv_range _ (puck_inv_move _ s (model obs) Hinv)) as Hx.
  rewrite step_below_limit in Hr by lia. cbv zeta in Hr.
  rewrite not_miss_in_range, not_goal_left, not_save_left in Hr by lra.
  rewrite Hr. cbn [done truncated orb observation reward].
  apply (IH n).
  - rewrite Hs1. now apply puck_inv_step.
  - rewrite Hs1, step_state. cbn [tick episode_step max_steps move]. lia.
  - lia.
Qed.

(** The sum a test report averages. *)
Definition reward_sum (ls : list EpisodeLine) : R :=
  fold_right (fun l acc => reward_shown l + acc) 0 ls.

Section TestLoop.

(** An invariant of launched states that keeps every proximity reward at
    or above [lo], and a property of generator states that makes [reset]
    establish it. *)
Variable Inv : HockeyEnv -> Prop.
Variable Gen : np.RandomState -> Prop.
Variable lo : R.
Hypothesis Inv_step : forall s a, Inv s -> Inv (fst (step s a)).
Hypothesis Inv_puck : forall s, Inv s -> puck_inv (-1) s.
Hypothesis Inv_shaping : forall s a, Inv s -> lo <= shaping (move s a).
Hypothesis Gen_next : forall g, Gen g -> Gen (fun n => g (S n)).
Hypothesis Gen_reset :
  forall s seed g, Gen g -> Inv (fst (fst (reset s seed g))).

Lemma test_episode_spec n : forall fuel model s obs acc,
  Inv s ->
  max_steps s = (episode_step s + Z.of_nat (S n))%Z ->
  (S n <= fuel)%nat ->
  exists s' total,
    test_episode fuel model s obs acc = Some (s', "timeout"%string, total) /\
    episode_step s' = max_steps s /\
    acc + IZR (Z.of_nat n) * lo - 10 <= total <= acc + IZR (Z.of_nat n) - 10.
Proof.
  induction n as [ | n IH ]; intros fuel model s obs acc Hinv Hmax Hfuel;
    (destruct fuel as [ | fuel ]; [ lia | ]);
    cbn [test_episode];
    destruct (step s (model obs)) as [s1 r] eqn:E;
    assert (Hs1 : s1 = fst (step s (model obs))) by (now rewrite E);
    assert (Hr : r = snd (step s (model obs))) by (now rewrite E).
  - rewrite step_at_limit in Hr by lia. rewrite Hr.
    cbn [done truncated orb info reward].
    exists s1, (acc + -10). split; [ reflexivity | ].
    split; [ rewrite Hs1, step_state; cbn [tick episode_step move]; lia | ].
    cbn. lra.
  - pose proof (puck_inv_range _
      (puck_inv_move _ s (model obs) (Inv_puck s Hinv))) as Hx.
    rewrite step_below_limit in Hr by lia. cbv zeta in Hr.
    rewrite not_miss_in_range, not_goal_left, not_save_left in Hr by lra.
    rewrite Hr. cbn [done truncated orb observation reward].
    destruct (IH fuel model s1
                (_get_observation (tick (move s (model obs))))
                (acc + shaping (move s (model obs))))
      as (s' & total & Hrun & Hstep & Hlo & Hhi).
    + rewrite Hs1. now apply Inv_step.
    + rewrite Hs1, step_state. cbn [tick episode_step max_steps move]. lia.
    + lia.
    + exists s', total. split; [ exact Hrun | ].
      split.
      { rewrite Hstep, Hs1, step_state. reflexivity. }
      pose proof (Inv_shaping s (model obs) Hinv).
      pose proof (shaping_le_1 (move s (model obs))).
      rewrite (Nat2Z.inj_succ n), succ_IZR. lra.
Qed.

Lemma test_episodes_spec fuel model : forall indices env g total,
  Gen g ->
  (300 <= fuel)%nat ->
  exists env' g' total' ls,
    test_episodes fuel model indices env g total = Some (env', g', total', ls) /\
    Gen g' /\
    map episode_number ls = map (fun i => (i + 1)%Z) indices /\
    Forall (fun l => result_shown l = "TIMEOUT"%string /\
                     299 * lo - 10 <= reward_shown l <= 289) ls /\
    total' = total + reward_sum ls.
Proof.
  induction indices as [ | i rest IH ]; intros env g total Hg Hfuel.
  - exists env, g, total, []. cbn. repeat split; [ assumption | constructor | lra ].
  - cbn [test_episodes]. rewrite reset_eq.
    destruct (test_episode_spec 299 fuel model
                (fst (fst (reset env None g)))
                (_get_observation (fst (fst (reset env None g)))) 0)
      as (s' & w & Hrun & _ & Hlo & Hhi).
    { now apply Gen_reset. }
    { reflexivity. }
    { lia. }
    rewrite Hrun.
    destruct (IH s' (fun n => g (S n)) (total + w) (Gen_next g Hg) Hfuel)
      as (env' & g' & total' & ls & Hrest & Hg' & Hnum & Hall & Htotal).
    rewrite Hrest.
    exists env', g', total',
      ({| episode_number := i + 1; result_shown := upper "timeout";
          reward_shown := w |} :: ls).
    split; [ reflexivity | ]. split; [ exact Hg' | ].
    split; [ cbn [map episode_number]; now rewrite Hnum | ].
    split.
    + constructor; [ | exact Hall ]. cbn [result_shown reward_shown].
      split; [ reflexivity | ]. cbn in Hlo, Hhi. lra.
    + rewrite Htotal. cbn [reward_sum fold_right reward_shown].
      fold (reward_sum ls). lra.
Qed.

Lemma reward_sum_bounds a b ls :
  Forall (fun l => a <= reward_shown l <= b) ls ->
  IZR (Z.of_nat (length ls)) * a <= reward_sum ls
    <= IZR (Z.of_nat (length ls)) * b.
Proof.
  induction 1 as [ | l ls Hl _ IH ]; [ cbn; lra | ].
  cbn [reward_sum fold_right length]. fold (reward_sum ls).
  rewrite Nat2Z.inj_succ, succ_IZR. lra.
Qed.

Lemma test_trained_model_spec fuel model env g :
  Gen g ->
  (300 <= fuel)%nat ->
  exists report env' g',
    test_trained_model fuel model env g = Some (report, env', g') /\
    map episode_number (lines report) = [1; 2; 3; 4; 5; 6; 7; 8; 9; 10]%Z /\
    Forall (fun l => result_shown l = "TIMEOUT"%string /\
                     299 * lo - 10 <= reward_shown l <= 289) (lines report) /\
    avg_reward report = reward_sum (lines report) / 10 /\
    message report = verdict (avg_reward report) /\
    299 * lo - 10 <= avg_reward report <= 289.
Proof.
  intros Hg Hfuel. unfold test_trained_model. rewrite reset_eq.
  destruct (test_episodes_spec fuel model (range 10)
              (fst (fst (reset env None g))) (fun n => g (S n)) 0
              (Gen_next g Hg) Hfuel)
    as (env' & g' & total' & ls & Hrun & _ & Hnum & Hall & Htotal).
  rewrite Hrun.
  exists {| lines := ls; avg_reward := total' / 10;
            message := verdict (total' / 10) |}, env', g'.
  cbn [lines avg_reward message].
  split; [ reflexivity | ]. split; [ exact Hnum | ]. split; [ exact Hall | ].
  assert (Hsum : total' = reward_sum ls) by lra.
  split; [ now rewrite Hsum | ]. split; [ reflexivity | ].
  assert (Hlen : length ls = 10%nat).
  { rewrite <- (length_map episode_number), Hnum. reflexivity. }
  pose proof (reward_sum_bounds (299 * lo - 10) 289 ls) as Hb.
  rewrite Hlen in Hb. cbn in Hb.
  assert (Hall' : Forall (fun l => 299 * lo - 10 <= reward_shown l <= 289) ls).
  { eapply Forall_impl; [ | exact Hall ]. cbn. tauto. }
  specialize (Hb Hall'). rewrite Hsum. lra.
Qed.

End TestLoop.

(** The policy that never moves the goalie. *)
Definition stand_still : Policy := fun _ => zero_action.

Definition unit_samples (g : np.RandomState) : Prop :=
  forall n, 0 <= g n < 1.

Definition launched (s : HockeyEnv) : Prop := puck_inv (-1) s /\ z_inv s.

Lemma launched_step s a : launched s -> launched (fst (step s a)).
Proof.
  intros [Hp Hz]. split; [ now apply puck_inv_step | now apply z_inv_step ].
Qed.

Lemma launched_reset s seed g :
  unit_samples g -> launched (fst (fst (reset s seed g))).
Proof.
  intros Hg. split; [ apply reset_puck_inv | apply reset_z_inv, Hg ].
Qed.

(** X8: a test episode always runs to the step limit.  For every policy,
    started from [reset] the [while True] loop leaves through its [break]
    on the 300th iteration, with the label "timeout", the counter at 300
    and an episode reward between -10 and 289. *)
Theorem test_episode_times_out fuel model self seed g :
  (300 <= fuel)%nat ->
  let env0 := fst (fst (reset self seed g)) in
  let obs0 := fst (snd (fst (reset self seed g))) in
  exists env' total,
    test_episode fuel model env0 obs0 0 = Some (env', "timeout"%string, total) /\
    episode_step env' = 300%Z /\
    -10 <= total <= 289.
Proof.
  intros Hfuel env0 obs0.
  destruct (test_episode_spec (puck_inv (-1)) 0
              (fun s a H => puck_inv_step (-1) s a H) (fun s H => H)
              (fun s a _ => shaping_nonneg (move s a))
              299 fuel model env0 obs0 0)
    as (env' & total & Hrun & Hstep & Hlo & Hhi).
  - apply reset_puck_inv.
  - reflexivity.
  - lia.
  - exists env', total. split; [ exact Hrun | ]. split; [ exact Hstep | ].
    cbn in Hlo, Hhi. lra.
Qed.

Lemma test_episode_times_out_witness :
  (300 <= 300)%nat /\
  test_episode 300 stand_still
    (fst (fst (reset blank None rng_mid)))
    (fst (snd (fst (reset blank None rng_mid)))) 0 <> None.
Proof.
  assert (H : (300 <= 300)%nat) by lia.
  split; [ exact H | ].
  destruct (test_episode_times_out 300 stand_still blank None rng_mid H)
    as (env' & total & Hrun & _).
  rewrite Hrun. discriminate.
Defined.

(** X9: no policy ends a test episode early.  Started from [reset], the
    loop has not reached its [break] after any number of iterations below
    300. *)
Theorem test_episode_needs_every_step fuel model self seed g :
  (fuel < 300)%nat ->
  let env0 := fst (fst (reset self seed g)) in
  let obs0 := fst (snd (fst (reset self seed g))) in
  test_episode fuel model env0 obs0 0 = None.
Proof.
  intros Hfuel env0 obs0.
  apply (test_episode_starves fuel 299).
  - apply reset_puck_inv.
  - reflexivity.
  - lia.
Qed.

Lemma test_episode_needs_every_step_witness :
  (299 < 300)%nat /\
  test_episode 299 stand_still
    (fst (fst (reset blank None rng_mid)))
    (fst (snd (fst (reset blank None rng_mid)))) 0 = None.
Proof.
  assert (H : (299 < 300)%nat) by lia.
  split; [ exact H | ].
  exact (test_episode_needs_every_step 299 stand_still blank None rng_mid H).
Defined.

(** X10: the test report of [train_goalie].  For every trained model and
    whatever state training left the environment in, the test loop
    finishes; it prints ten lines numbered 1 to 10, every one with the
    result TIMEOUT and a reward between -10 and 289, and the average is
    the sum of the ten rewards over 10, itself between -10 and 289. *)
Theorem test_report_all_timeouts fuel model env g :
  (300 <= fuel)%nat ->
  exists report env' g',
    test_trained_model fuel model env g = Some (report, env', g') /\
    map episode_number (lines report) = [1; 2; 3; 4; 5; 6; 7; 8; 9; 10]%Z /\
    Forall (fun l => result_shown l = "TIMEOUT"%string /\
                     -10 <= reward_shown l <= 289) (lines report) /\
    avg_reward report = reward_sum (lines report) / 10 /\
    -10 <= avg_reward report <= 289.
Proof.
  intros Hfuel.
  destruct (test_trained_model_spec (puck_inv (-1)) (fun _ => True) 0
              (fun s a H => puck_inv_step (-1) s a H) (fun s H => H)
              (fun s a _ => shaping_nonneg (move s a))
              (fun _ _ => I) (fun s seed g' _ => reset_puck_inv s seed g')
              fuel model env g I Hfuel)
    as (report & env' & g' & Hrun & Hnum & Hall & Havg & _ & Hb).
  exists report, env', g'.
  split; [ exact Hrun | ]. split; [ exact Hnum | ].
  split; [ | split; [ exact Havg | lra ] ].
  eapply Forall_impl; [ | exact Hall ]. cbn. intros l [Hl Hr].
  split; [ exact Hl | lra ].
Qed.

Lemma test_report_all_timeouts_witness :
  (300 <= 300)%nat /\ test_trained_model 300 stand_still blank rng_mid <> None.
Proof.
  assert (H : (300 <= 300)%nat) by lia.
  split; [ exact H | ].
  destruct (test_report_all_timeouts 300 stand_still blank rng_mid H)
    as (report & env' & g' & Hrun & _).
  rewrite Hrun. discriminate.
Defined.

(** X11: the closing message is never "needs more training".  When the
    global generator hands out unit samples in [0, 1), every test episode
    earns at least 64.75 for every policy (the goalie is never further
    than 7.5 from the puck, so each of the 299 steps before the timeout
    pays at least 0.25); the average is at least 64.75 and the verdict is
    "performing well" or "learning". *)
Theorem test_verdict_never_needs_training fuel model env g :
  (300 <= fuel)%nat ->
  unit_samples g ->
  exists report env' g',
    test_trained_model fuel model env g = Some (report, env', g') /\
    Forall (fun l => 64.75 <= reward_shown l) (lines report) /\
    64.75 <= avg_reward report /\
    message report <> NeedsMoreTraining.
Proof.
  intros Hfuel Hg.
  destruct (test_trained_model_spec launched unit_samples 0.25
              launched_step (fun s H => proj1 H)
              (fun s a H => launched_shaping s a (proj1 H) (proj2 H))
              (fun g' H n => H (S n)) launched_reset
              fuel model env g Hg Hfuel)
    as (report & env' & g' & Hrun & _ & Hall & _ & Hmsg & Hb).
  exists report, env', g'.
  split; [ exact Hrun | ]. split; [ | split; [ lra | ] ].
  - eapply Forall_impl; [ | exact Hall ]. cbn. intros l [_ Hr]. lra.
  - rewrite Hmsg. unfold verdict.
    destruct (Rgtb (avg_reward report) 100); [ discriminate | ].
    assert (H0 : Rgtb (avg_reward report) 0 = true) by (apply Rgtb_true; lra).
    rewrite H0. discriminate.
Qed.

Lemma test_verdict_never_needs_training_witness :
  (300 <= 300)%nat /\ unit_samples rng_mid /\
  test_trained_model 300 stand_still blank rng_mid <> None.
Proof.
  assert (H : (300 <= 300)%nat) by lia.
  assert (Hg : unit_samples rng_mid) by (intros n; unfold rng_mid; lra).
  split; [ exact H | ]. split; [ exact Hg | ].
  destruct (test_verdict_never_needs_training 300 stand_still blank rng_mid H Hg)
    as (report & env' & g' & Hrun & _).
  rewrite Hrun. discriminate.
Defined.
